(** * Device, sensor and reading storage of the climate-platform API

    A shallow embedding of [app/models.py] and of the reading endpoints of
    [app/main.py].  The PostgreSQL tables of schema [sensor] are lists of
    rows; every statement is a function from the store to an error or a new
    store.  A failing statement leaves the tables as they were (statement
    atomicity; [executemany] runs in one implicit transaction).  Python
    floats are only carried from the request to the row, so they are
    represented by [Q]. *)

From Stdlib Require Import List String ZArith QArith Qminmax Bool Lia.
From Stdlib Require Import Sorting.Permutation Sorting.Sorted.
Import ListNotations.
Set Warnings "-register-all".
Open Scope string_scope.
Open Scope list_scope.
Open Scope Z_scope.

(** ** Errors and the result type *)

(** The exceptions the code can raise (Python, asyncpg and PostgreSQL). *)
Inductive Exc :=
| AttributeError        (* Python: attribute lookup on a pydantic model *)
| DataError             (* asyncpg: a query argument its codec cannot encode *)
| ForeignKeyViolation   (* PostgreSQL: a row references a missing parent *)
| InvalidRowCount       (* PostgreSQL: negative LIMIT or OFFSET *)
| ValidationError       (* sp_getchartdata: a bucket it does not know *)
| NotFoundError         (* named by the spec; raised nowhere in the code *)
| CharacterNotInRepertoire  (* PostgreSQL: a text parameter holding U+0000 *)
| UniqueViolation       (* PostgreSQL: an inserted row repeats a primary key *)
| ResponseValidationError.  (* FastAPI: a result its response model refuses *)

Inductive Result (A : Type) :=
| Ok : A -> Result A
| Err : Exc -> Result A.
Arguments Ok {A} _.
Arguments Err {A} _.

Definition bind {A B} (r : Result A) (k : A -> Result B) : Result B :=
  match r with Ok a => k a | Err e => Err e end.

Notation "'let*' x ':=' c 'in' k" := (bind c (fun x => k))
  (at level 200, x name, c at level 100, k at level 200).

(** [[f x for x in xs]] where [f] may raise: the first exception wins. *)
Fixpoint map_result {A B} (f : A -> Result B) (xs : list A) : Result (list B) :=
  match xs with
  | [] => Ok []
  | x :: xs' => let* y := f x in let* ys := map_result f xs' in Ok (y :: ys)
  end.

(** ** Python values *)

Definition float := Q.

(** A JSON-like Python value, the contents of a [dict]. *)
Inductive pyjson :=
| JNone
| JBool (b : bool)
| JInt (z : Z)
| JStr (s : string)
| JList (l : list pyjson)
| JDict (d : list (string * pyjson)).

Definition pydict := list (string * pyjson).

(** Values bound to query parameters. *)
Inductive pyval :=
| PyNone
| PyInt (z : Z)
| PyFloat (q : float)
| PyStr (s : string)
| PyDatetime (t : Z)        (* seconds since the epoch, UTC *)
| PyDict (d : pydict).

(** ** Rows of the tables of schema [sensor] *)

Module Dispositivo.
Record t := mk {
  dispositivoid : Z;
  serie : string;
  nombre : string;
  ubicacion : option string;
  tipo : option string;
  firmware : option string;
  configuracion : option string   (* json column, text as stored *)
}.
End Dispositivo.

Module Sensor.
Record t := mk {
  sensorid : Z;
  dispositivoid : Z;
  codigosensor : option string;
  nombre : string;
  unidad : string;
  factorescala : float;
  desplazamiento : float;
  rangomin : option float;
  rangomax : option float
}.
End Sensor.

Module Lectura.
Record t := mk {
  lecturaid : Z;
  dispositivoid : Z;
  sensorid : Z;
  fechahora : Z;
  valor : option float;
  calidad : option Z;
  rawrow : option string
}.
End Lectura.

(** The database: the three tables and the sequences of their serial keys. *)
Record Store := mkStore {
  dispositivos : list Dispositivo.t;
  sensores : list Sensor.t;
  lecturas : list Lectura.t;
  seq_dispositivo : Z;
  seq_sensor : Z;
  seq_lectura : Z
}.

Definition empty_store : Store := mkStore [] [] [] 1 1 1.

Definition set_dispositivos (st : Store) (ds : list Dispositivo.t) (sq : Z) : Store :=
  mkStore ds (sensores st) (lecturas st) sq (seq_sensor st) (seq_lectura st).
Definition set_sensores (st : Store) (ss : list Sensor.t) (sq : Z) : Store :=
  mkStore (dispositivos st) ss (lecturas st) (seq_dispositivo st) sq (seq_lectura st).
Definition set_lecturas (st : Store) (ls : list Lectura.t) (sq : Z) : Store :=
  mkStore (dispositivos st) (sensores st) ls (seq_dispositivo st) (seq_sensor st) sq.

(** ** Parameter encoding by asyncpg

    asyncpg's default codec for a [json]/[jsonb] (or text) column accepts a
    Python [str] only: any other object raises [DataError] ("expected str,
    got dict") while the arguments are encoded, before the statement is
    sent.  No codec is registered in [db.py] ([init] only sets the search
    path). *)
Definition encode_json_param (v : option pydict) : Result (option string) :=
  match v with
  | None => Ok None
  | Some _ => Err DataError
  end.

(** Text parameters reach PostgreSQL as UTF-8, and the server refuses a
    string holding the character U+0000 when it binds the parameter
    ([CharacterNotInRepertoireError]), before the statement runs.  asyncpg
    encodes every argument on the client first, so its [DataError]s come
    before this one. *)
Fixpoint has_nul (s : string) : bool :=
  match s with
  | EmptyString => false
  | String c s' => Ascii.eqb c Ascii.zero || has_nul s'
  end.

Definition nul_free (o : option string) : bool :=
  match o with Some s => negb (has_nul s) | None => true end.

Definition bind_text (params : list (option string)) : Result unit :=
  if forallb nul_free params then Ok tt else Err CharacterNotInRepertoire.

(** Modelled from the spec: the id columns are [integer] ("deviceId
    (integer)", section 5), PostgreSQL's 32-bit [int4]; the DDL is not in
    the Python sources.  asyncpg's [int4] codec refuses a Python [int]
    outside that range with [DataError] before anything is sent. *)
Definition int4_range (z : Z) : bool := (-2147483648 <=? z) && (z <=? 2147483647).

Definition int4_param (z : Z) : Result Z := if int4_range z then Ok z else Err DataError.

(** ** [upsert_dispositivo] (models.py)

    [INSERT ... ON CONFLICT (serie) DO UPDATE SET nombre, ubicacion, tipo,
    firmware, configuracion = EXCLUDED.* RETURNING dispositivoid].  The
    serial default [nextval] is evaluated for the proposed row before the
    conflict is detected, so the sequence advances in both branches.  The
    [if not row: raise] branch is unreachable: [RETURNING] yields a row in
    both branches.  Without a conflict on [serie] the row is inserted with
    the id [nextval] gave, and the primary key refuses it when a row
    already holds that id. *)
Definition dispositivo_id_taken (st : Store) (id : Z) : bool :=
  existsb (fun r => Z.eqb (Dispositivo.dispositivoid r) id) (dispositivos st).


Definition same_serie (serie : string) (d : Dispositivo.t) : bool :=
  String.eqb (Dispositivo.serie d) serie.

Definition upsert_dispositivo (st : Store) (serie nombre : string)
    (ubicacion tipo firmware : option string) (configuracion : option pydict)
    : Result (Z * Store) :=
  let* cfg := encode_json_param configuracion in
  let* _ := bind_text [Some serie; Some nombre; ubicacion; tipo; firmware] in
  let next := seq_dispositivo st in
  match find (same_serie serie) (dispositivos st) with
  | Some old =>
      let upd d :=
        if same_serie serie d
        then Dispositivo.mk (Dispositivo.dispositivoid d) (Dispositivo.serie d)
               nombre ubicacion tipo firmware cfg
        else d in
      Ok (Dispositivo.dispositivoid old,
          set_dispositivos st (map upd (dispositivos st)) (next + 1))
  | None =>
      if dispositivo_id_taken st next then Err UniqueViolation
      else
        Ok (next,
            set_dispositivos st
              (dispositivos st ++ [Dispositivo.mk next serie nombre ubicacion tipo firmware cfg])
              (next + 1))
  end.

(** ** [upsert_sensor] (models.py)

    [INSERT ... ON CONFLICT (codigosensor, dispositivoid) DO UPDATE SET
    nombre, unidad, factorescala, desplazamiento, rangomin, rangomax].  A
    unique index treats NULLs as distinct, so a row whose [codigosensor] is
    NULL never conflicts with anything.  The only integer argument is
    [$1]; on an insert the primary key is checked when the row enters the
    index, before the foreign key's end-of-statement check. *)
Definition sensor_key_conflict (d : Z) (code : option string) (s : Sensor.t) : bool :=
  match code, Sensor.codigosensor s with
  | Some c, Some c' => String.eqb c' c && Z.eqb (Sensor.dispositivoid s) d
  | _, _ => false
  end.

(** Modelled from the spec: the foreign key [sensores.dispositivoid]
    references [dispositivos] (section 6, "Sensors(id, device_id FK, ...)");
    the DDL is not part of the Python sources.  PostgreSQL checks it when a
    row is inserted; an update that keeps the column does not re-check it. *)
Definition dispositivo_exists (st : Store) (d : Z) : bool :=
  existsb (fun r => Z.eqb (Dispositivo.dispositivoid r) d) (dispositivos st).

Definition sensor_id_taken (st : Store) (id : Z) : bool :=
  existsb (fun r => Z.eqb (Sensor.sensorid r) id) (sensores st).


Definition upsert_sensor (st : Store) (p_dispositivoid : Z)
    (p_codigosensor : option string) (p_nombre p_unidad : string)
    (p_factorescala p_desplazamiento : float)
    (p_rangomin p_rangomax : option float) : Result (Z * Store) :=
  let* _ := int4_param p_dispositivoid in
  let* _ := bind_text [p_codigosensor; Some p_nombre; Some p_unidad] in
  let next := seq_sensor st in
  match find (sensor_key_conflict p_dispositivoid p_codigosensor) (sensores st) with
  | Some old =>
      let upd s :=
        if sensor_key_conflict p_dispositivoid p_codigosensor s
        then Sensor.mk (Sensor.sensorid s) (Sensor.dispositivoid s) (Sensor.codigosensor s)
               p_nombre p_unidad p_factorescala p_desplazamiento p_rangomin p_rangomax
        else s in
      Ok (Sensor.sensorid old, set_sensores st (map upd (sensores st)) (next + 1))
  | None =>
      if sensor_id_taken st next then Err UniqueViolation
      else if dispositivo_exists st p_dispositivoid then
        Ok (next,
            set_sensores st
              (sensores st ++ [Sensor.mk next p_dispositivoid p_codigosensor p_nombre
                                 p_unidad p_factorescala p_desplazamiento p_rangomin p_rangomax])
              (next + 1))
      else Err ForeignKeyViolation
  end.

(** ** [get_devices] (main.py, GET /devices)

    [SELECT * FROM sensor.dispositivos ORDER BY dispositivoid]; the
    configuration is [json.loads(r["configuracion"]) if r["configuracion"]
    else None], so NULL and the empty string read back as [None].  Python's
    [json.loads] is a parameter; any exception becomes an HTTP 500, kept
    here as the exception itself.  The answer is then checked against
    [response_model=List[DeviceOut]], whose [configuracion] is
    [Optional[dict]]: a JSON value that is not an object fails it. *)
Section GetDevices.
Variable json_loads : string -> Result pyjson.

Record DeviceOut := mkDeviceOut {
  out_dispositivoid : Z;
  out_serie : string;
  out_nombre : string;
  out_ubicacion : option string;
  out_tipo : option string;
  out_firmware : option string;
  out_configuracion : option pyjson
}.

Fixpoint insert_by_id (d : Dispositivo.t) (ds : list Dispositivo.t) : list Dispositivo.t :=
  match ds with
  | [] => [d]
  | d' :: ds' =>
      if Dispositivo.dispositivoid d <=? Dispositivo.dispositivoid d'
      then d :: ds else d' :: insert_by_id d ds'
  end.

Definition order_by_dispositivoid (ds : list Dispositivo.t) : list Dispositivo.t :=
  fold_right insert_by_id [] ds.

Definition decode_configuracion (c : option string) : Result (option pyjson) :=
  match c with
  | None | Some EmptyString => Ok None
  | Some s => let* j := json_loads s in Ok (Some j)
  end.

Definition response_configuracion (cfg : option pyjson) : Result (option pyjson) :=
  match cfg with
  | None | Some (JDict _) => Ok cfg
  | Some _ => Err ResponseValidationError
  end.

Definition device_out (r : Dispositivo.t) : Result DeviceOut :=
  let* cfg0 := decode_configuracion (Dispositivo.configuracion r) in
  let* cfg := response_configuracion cfg0 in
  Ok (mkDeviceOut (Dispositivo.dispositivoid r) (Dispositivo.serie r) (Dispositivo.nombre r)
        (Dispositivo.ubicacion r) (Dispositivo.tipo r) (Dispositivo.firmware r) cfg).

Definition get_devices (st : Store) : Result (list DeviceOut) :=
  map_result device_out (order_by_dispositivoid (dispositivos st)).
End GetDevices.

(** ** [insert_lecturas_batch] (main.py, POST /lecturas/batch) *)

(** The request items, [schemas.LecturaCreate]. *)
Module LecturaCreate.
Record t := mk {
  dispositivoid : Z;
  sensorid : Z;
  fechahora : Z;
  temperatura : option float;
  humedad : option float;
  calidad : option Z
}.
End LecturaCreate.

Definition opt_float (o : option float) : pyval :=
  match o with Some q => PyFloat q | None => PyNone end.
Definition opt_int (o : option Z) : pyval :=
  match o with Some z => PyInt z | None => PyNone end.

(** [item.<name>] on a pydantic model: its declared fields only (extra
    input keys are ignored by the model), anything else raises
    [AttributeError]. *)
Definition lectura_getattr (item : LecturaCreate.t) (name : string) : Result pyval :=
  if String.eqb name "dispositivoid" then Ok (PyInt (LecturaCreate.dispositivoid item))
  else if String.eqb name "sensorid" then Ok (PyInt (LecturaCreate.sensorid item))
  else if String.eqb name "fechahora" then Ok (PyDatetime (LecturaCreate.fechahora item))
  else if String.eqb name "temperatura" then Ok (opt_float (LecturaCreate.temperatura item))
  else if String.eqb name "humedad" then Ok (opt_float (LecturaCreate.humedad item))
  else if String.eqb name "calidad" then Ok (opt_int (LecturaCreate.calidad item))
  else Err AttributeError.

Definition args6 := (pyval * pyval * pyval * pyval * pyval * pyval)%type.

(** The tuple built for one item, its entries evaluated left to right:
    [(item.dispositivoid, item.sensorid, item.fechahora, item.valor,
    item.calidad, None)]. *)
Definition lectura_args (item : LecturaCreate.t) : Result args6 :=
  let* d := lectura_getattr item "dispositivoid" in
  let* s := lectura_getattr item "sensorid" in
  let* f := lectura_getattr item "fechahora" in
  let* v := lectura_getattr item "valor" in
  let* c := lectura_getattr item "calidad" in
  Ok (d, s, f, v, c, PyNone).

(** asyncpg encoding of the six arguments for the columns (DispositivoID
    int, SensorID int, FechaHora timestamp, Valor float, Calidad int,
    RawRow text).  The first three come from required model fields and are
    never [None]. *)
Definition enc_key_int (v : pyval) : Result Z :=
  match v with PyInt z => Ok z | _ => Err DataError end.
Definition enc_timestamp (v : pyval) : Result Z :=
  match v with PyDatetime t => Ok t | _ => Err DataError end.
Definition enc_float (v : pyval) : Result (option float) :=
  match v with
  | PyNone => Ok None
  | PyFloat q => Ok (Some q)
  | PyInt z => Ok (Some (inject_Z z))
  | _ => Err DataError
  end.
Definition enc_int (v : pyval) : Result (option Z) :=
  match v with PyNone => Ok None | PyInt z => Ok (Some z) | _ => Err DataError end.
Definition enc_text (v : pyval) : Result (option string) :=
  match v with PyNone => Ok None | PyStr s => Ok (Some s) | _ => Err DataError end.

Definition same_lectura_key (d s f : Z) (l : Lectura.t) : bool :=
  Z.eqb (Lectura.dispositivoid l) d && Z.eqb (Lectura.sensorid l) s
  && Z.eqb (Lectura.fechahora l) f.

(** Modelled from the spec: the foreign keys of [lecturas] on
    [dispositivos] and [sensores] (section 6, "Readings(device_id FK,
    sensor_id FK, ...)"). *)
Definition sensor_exists (st : Store) (s : Z) : bool :=
  existsb (fun r => Z.eqb (Sensor.sensorid r) s) (sensores st).

(** One execution of [INSERT INTO sensor.Lecturas ... ON CONFLICT
    (DispositivoID, SensorID, FechaHora) DO NOTHING]. *)
Definition insert_lectura (st : Store) (a : args6) : Result Store :=
  let '(d0, s0, f0, v0, c0, r0) := a in
  let* d := enc_key_int d0 in
  let* s := enc_key_int s0 in
  let* f := enc_timestamp f0 in
  let* v := enc_float v0 in
  let* c := enc_int c0 in
  let* r := enc_text r0 in
  let next := seq_lectura st in
  if existsb (same_lectura_key d s f) (lecturas st) then
    Ok (set_lecturas st (lecturas st) (next + 1))
  else if dispositivo_exists st d && sensor_exists st s then
    Ok (set_lecturas st (lecturas st ++ [Lectura.mk next d s f v c r]) (next + 1))
  else Err ForeignKeyViolation.

(** [conn.executemany]: the statement once per argument tuple, in order, in
    one implicit transaction; an exception rolls back all of them. *)
Fixpoint executemany_lecturas (st : Store) (rows : list args6) : Result Store :=
  match rows with
  | [] => Ok st
  | a :: rest => let* st' := insert_lectura st a in executemany_lecturas st' rest
  end.

(** The endpoint.  The argument list is built before [executemany] is
    called; the background [get_chart_data] task runs after the response
    and only reads.  The reply is [{"inserted": len(lecturas)}]. *)
Definition insert_lecturas_batch (st : Store) (lecturas : list LecturaCreate.t)
    : Result (Z * Store) :=
  let* rows := map_result lectura_args lecturas in
  let* st' := executemany_lecturas st rows in
  Ok (Z.of_nat (List.length lecturas), st').

(** ** [get_chart_data] (models.py)

    The Python function forwards its five arguments unchanged to
    [SELECT * FROM sensor.sp_getchartdata($1,$2,$3,$4,$5)] and turns each
    row into a dict.  The arguments are encoded (the device id as an
    integer) and bound (the texts) before the procedure runs.  The stored procedure is not among the Python
    sources. *)

(** The civil calendar (proleptic Gregorian, UTC) on days since
    1970-01-01, used by the week and month buckets. *)
Definition days_from_civil (y m d : Z) : Z :=
  let y' := if m <=? 2 then y - 1 else y in
  let era := y' / 400 in
  let yoe := y' - era * 400 in
  let mp := if 2 <? m then m - 3 else m + 9 in
  let doy := (153 * mp + 2) / 5 + d - 1 in
  let doe := yoe * 365 + yoe / 4 - yoe / 100 + doy in
  era * 146097 + doe - 719468.

Definition civil_from_days (z : Z) : Z * Z * Z :=
  let z' := z + 719468 in
  let era := z' / 146097 in
  let doe := z' - era * 146097 in
  let yoe := (doe - doe / 1460 + doe / 36524 - doe / 146096) / 365 in
  let doy := doe - (365 * yoe + yoe / 4 - yoe / 100) in
  let mp := (5 * doy + 2) / 153 in
  let d := doy - (153 * mp + 2) / 5 + 1 in
  let m := if mp <? 10 then mp + 3 else mp - 9 in
  (if m <=? 2 then yoe + era * 400 + 1 else yoe + era * 400, m, d).

Definition valid_buckets : list string := ["minute"; "hour"; "day"; "week"; "month"].

(** Modelled from the spec: [sensor.sp_getchartdata] (section 4.3).  The
    bucket is one of minute, hour, day, week, month, any other value fails
    with [ValidationError]; a timestamp is truncated to its bucket boundary
    (ISO weeks start on Monday, 1970-01-01 was a Thursday). *)
Definition bucket_start (bucket : string) (t : Z) : option Z :=
  let day := t / 86400 in
  if String.eqb bucket "minute" then Some (t - t mod 60)
  else if String.eqb bucket "hour" then Some (t - t mod 3600)
  else if String.eqb bucket "day" then Some (day * 86400)
  else if String.eqb bucket "week" then Some ((day - (day + 3) mod 7) * 86400)
  else if String.eqb bucket "month" then
    let '(y, m, _) := civil_from_days day in Some (days_from_civil y m 1 * 86400)
  else None.

Record ChartBucket := mkChartBucket {
  cb_dispositivoid : Z;
  cb_sensorid : Z;
  cb_sensor_label : string;
  cb_bucket_start : Z;
  cb_bucket_width : string;
  cb_count : nat;
  cb_avg : option Q;
  cb_min : option Q;
  cb_max : option Q
}.

Definition sensor_row (st : Store) (s : Z) : option Sensor.t :=
  find (fun r => Z.eqb (Sensor.sensorid r) s) (sensores st).

Definition sensor_label (st : Store) (s : Z) : string :=
  match sensor_row st s with Some r => Sensor.nombre r | None => EmptyString end.

(** Modelled from the spec: the filters of [sp_getchartdata]: the device
    if given, the sensor name by exact match if given, and [from <= t < to]. *)
Definition chart_matches (st : Store) (dispositivoid : option Z) (sensornombre : option string)
    (desde hasta : Z) (l : Lectura.t) : bool :=
  match dispositivoid with Some d => Z.eqb (Lectura.dispositivoid l) d | None => true end
  && match sensornombre with
     | Some n => match sensor_row st (Lectura.sensorid l) with
                 | Some r => String.eqb (Sensor.nombre r) n
                 | None => false
                 end
     | None => true
     end
  && (desde <=? Lectura.fechahora l) && (Lectura.fechahora l <? hasta).

(** Groups keyed by (bucket start, device, sensor), kept in ascending
    lexicographic order of the key. *)
Definition gkey := (Z * Z * Z)%type.

Definition gkey_ltb (a b : gkey) : bool :=
  let '(a1, a2, a3) := a in let '(b1, b2, b3) := b in
  (a1 <? b1) || ((a1 =? b1) && ((a2 <? b2) || ((a2 =? b2) && (a3 <? b3)))).

Definition gkey_eqb (a b : gkey) : bool :=
  let '(a1, a2, a3) := a in let '(b1, b2, b3) := b in
  (a1 =? b1) && (a2 =? b2) && (a3 =? b3).

Fixpoint add_to_group (k : gkey) (l : Lectura.t) (gs : list (gkey * list Lectura.t))
    : list (gkey * list Lectura.t) :=
  match gs with
  | [] => [(k, [l])]
  | (k', ls) :: gs' =>
      if gkey_eqb k k' then (k', ls ++ [l]) :: gs'
      else if gkey_ltb k k' then (k, [l]) :: gs
      else (k', ls) :: add_to_group k l gs'
  end.

Definition qmin_opt (acc : option Q) (q : Q) : option Q :=
  match acc with Some a => Some (Qmin a q) | None => Some q end.
Definition qmax_opt (acc : option Q) (q : Q) : option Q :=
  match acc with Some a => Some (Qmax a q) | None => Some q end.

Definition aggregate (st : Store) (bucket : string) (g : gkey * list Lectura.t) : ChartBucket :=
  let '((b, d, s), ls) := g in
  let vs := flat_map (fun l => match Lectura.valor l with Some v => [v] | None => [] end) ls in
  let avg := match vs with
             | [] => None
             | _ => Some (fold_left Qplus vs 0%Q / inject_Z (Z.of_nat (List.length vs)))%Q
             end in
  mkChartBucket d s (sensor_label st s) b bucket (List.length ls) avg
    (fold_left qmin_opt vs None) (fold_left qmax_opt vs None).

Definition sp_getchartdata (st : Store) (dispositivoid : option Z)
    (sensornombre : option string) (desde hasta : Z) (bucket : string)
    : Result (list ChartBucket) :=
  if existsb (String.eqb bucket) valid_buckets then
    let ls := filter (chart_matches st dispositivoid sensornombre desde hasta) (lecturas st) in
    let groups :=
      fold_left (fun gs l =>
                   match bucket_start bucket (Lectura.fechahora l) with
                   | Some b => add_to_group (b, Lectura.dispositivoid l, Lectura.sensorid l) l gs
                   | None => gs
                   end) ls [] in
    Ok (map (aggregate st bucket) groups)
  else Err ValidationError.

Definition get_chart_data (st : Store) (dispositivoid : option Z)
    (sensornombre : option string) (desde hasta : Z) (bucket : string)
    : Result (list ChartBucket) :=
  let* _ := match dispositivoid with Some d => int4_param d | None => Ok 0 end in
  let* _ := bind_text [sensornombre; Some bucket] in
  let* rows := sp_getchartdata st dispositivoid sensornombre desde hasta bucket in
  Ok rows.

(** ** [export_lecturas] (models.py)

    [SELECT LecturaID, FechaHora, Valor, Calidad, DispositivoID, SensorID
    FROM sensor.Lecturas ORDER BY FechaHora DESC LIMIT $1 OFFSET $2].  SQL
    fixes the order of rows only up to the sort key: rows with the same
    [FechaHora] may come in any order, so the query is a relation between
    the store and its possible answers.  A negative LIMIT or OFFSET is
    rejected by PostgreSQL. *)
Record ExportRow := mkExportRow {
  ex_lecturaid : Z;
  ex_fechahora : Z;
  ex_valor : option float;
  ex_calidad : option Z;
  ex_dispositivoid : Z;
  ex_sensorid : Z
}.

Definition export_row (l : Lectura.t) : ExportRow :=
  mkExportRow (Lectura.lecturaid l) (Lectura.fechahora l) (Lectura.valor l)
    (Lectura.calidad l) (Lectura.dispositivoid l) (Lectura.sensorid l).

Definition fechahora_desc (a b : Lectura.t) : Prop :=
  Lectura.fechahora b <= Lectura.fechahora a.

Inductive export_lecturas (st : Store) (limit offset : Z) : Result (list ExportRow) -> Prop :=
| export_negative_limit :
    limit < 0 -> export_lecturas st limit offset (Err InvalidRowCount)
| export_negative_offset :
    offset < 0 -> export_lecturas st limit offset (Err InvalidRowCount)
| export_rows : forall ordered,
    0 <= limit -> 0 <= offset ->
    Permutation ordered (lecturas st) ->
    Sorted fechahora_desc ordered ->
    export_lecturas st limit offset
      (Ok (map export_row (firstn (Z.to_nat limit) (skipn (Z.to_nat offset) ordered)))).

(** ** [create_device] (main.py, POST /devices)

    The body is a [schemas.DeviceCreate]; every exception of
    [upsert_dispositivo] becomes an HTTP 500, and the answer on success is
    [{"dispositivoid": device_id}] with status 201. *)
Module DeviceCreate.
Record t := mk {
  serie : string;
  nombre : string;
  ubicacion : option string;
  tipo : option string;
  firmware : option string;
  configuracion : option pydict
}.
End DeviceCreate.



(** ** [get_sensors] (main.py, GET /sensors)

    [SELECT SensorID, DispositivoID, CodigoSensor, Nombre, Unidad,
    FactorEscala, Desplazamiento, RangoMin, RangoMax FROM sensor.Sensores
    ORDER BY SensorID ASC]: every row, all nine columns, by ascending id
    (the primary key). *)
Fixpoint insert_by_sensorid (s : Sensor.t) (ss : list Sensor.t) : list Sensor.t :=
  match ss with
  | [] => [s]
  | s' :: ss' =>
      if Sensor.sensorid s <=? Sensor.sensorid s' then s :: ss else s' :: insert_by_sensorid s ss'
  end.

Definition get_sensors (st : Store) : list Sensor.t :=
  fold_right insert_by_sensorid [] (sensores st).

(** ** [get_lecturas] (main.py, GET /lecturas)

    The query text is built by appending clauses; a clause is kept here as
    the column it tests and the [$k] placeholders it names:
    [WHERE fechahora BETWEEN $1 AND $2], then [AND dispositivoid = $3] when
    [dispositivoid] is truthy, then [AND sensorid = ${len(params) + 1}] when
    [sensorid] is truthy.  Python's truthiness makes [0] count as absent. *)
Inductive where_clause :=
| WhereBetween (col : string) (lo hi : nat)
| WhereEq (col : string) (k : nat).

Definition py_truthy_int (o : option Z) : option Z :=
  match o with Some z => if z =? 0 then None else Some z | None => None end.

Definition get_lecturas_query (dispositivoid sensorid : option Z) (desde hasta : Z)
    : list where_clause * list pyval :=
  let q0 := [WhereBetween "fechahora" 1 2] in
  let p0 := [PyDatetime desde; PyDatetime hasta] in
  let '(q1, p1) :=
    match py_truthy_int dispositivoid with
    | Some d => (q0 ++ [WhereEq "dispositivoid" 3], p0 ++ [PyInt d])
    | None => (q0, p0)
    end in
  match py_truthy_int sensorid with
  | Some s => (q1 ++ [WhereEq "sensorid" (List.length p1 + 1)], p1 ++ [PyInt s])
  | None => (q1, p1)
  end.

(** The highest [$k] a query names: asyncpg refuses a call whose number of
    arguments differs from it. *)
Definition clause_max (c : where_clause) : nat :=
  match c with WhereBetween _ lo hi => Nat.max lo hi | WhereEq _ k => k end.

Definition max_placeholder (q : list where_clause) : nat :=
  fold_right (fun c m => Nat.max (clause_max c) m) 0%nat q.

Definition param_at (params : list pyval) (k : nat) : option pyval := nth_error params (k - 1).

Definition lectura_int_col (l : Lectura.t) (col : string) : option Z :=
  if String.eqb col "lecturaid" then Some (Lectura.lecturaid l)
  else if String.eqb col "dispositivoid" then Some (Lectura.dispositivoid l)
  else if String.eqb col "sensorid" then Some (Lectura.sensorid l)
  else None.

(** A clause on one row; [None] for a comparison PostgreSQL would refuse. *)
Definition eval_clause (params : list pyval) (l : Lectura.t) (c : where_clause) : option bool :=
  match c with
  | WhereBetween col lo hi =>
      match String.eqb col "fechahora", param_at params lo, param_at params hi with
      | true, Some (PyDatetime a), Some (PyDatetime b) =>
          Some ((a <=? Lectura.fechahora l) && (Lectura.fechahora l <=? b))
      | _, _, _ => None
      end
  | WhereEq col k =>
      match lectura_int_col l col, param_at params k with
      | Some v, Some (PyInt p) => Some (v =? p)
      | _, _ => None
      end
  end.

Fixpoint eval_where (params : list pyval) (l : Lectura.t) (q : list where_clause) : option bool :=
  match q with
  | [] => Some true
  | c :: q' =>
      match eval_clause params l c, eval_where params l q' with
      | Some b, Some b' => Some (b && b')
      | _, _ => None
      end
  end.

Fixpoint filter_option {A} (f : A -> option bool) (l : list A) : option (list A) :=
  match l with
  | [] => Some []
  | x :: l' =>
      match f x, filter_option f l' with
      | Some b, Some r => Some (if b then x :: r else r)
      | _, _ => None
      end
  end.

(** The rows [get_lecturas] is meant to select, read off the query it
    builds: the closed interval [desde .. hasta], and a device or sensor
    only when the parameter is truthy. *)
Definition lectura_selected (dispositivoid sensorid : option Z) (desde hasta : Z)
    (l : Lectura.t) : bool :=
  (desde <=? Lectura.fechahora l) && (Lectura.fechahora l <=? hasta)
  && match py_truthy_int dispositivoid with
     | Some d => Lectura.dispositivoid l =? d | None => true end
  && match py_truthy_int sensorid with
     | Some s => Lectura.sensorid l =? s | None => true end.

(** [desde or (utcnow() - timedelta(days=7))] and [hasta or utcnow()];
    a [datetime] is always truthy. *)
Definition default_desde (now1 : Z) (desde : option Z) : Z :=
  match desde with Some d => d | None => now1 - 7 * 86400 end.
Definition default_hasta (now2 : Z) (hasta : option Z) : Z :=
  match hasta with Some h => h | None => now2 end.

(** The row dicts the endpoint returns ([fechahora] before [isoformat]). *)
Record LecturaOut := mkLecturaOut {
  lo_lecturaid : Z;
  lo_dispositivoid : Z;
  lo_sensorid : Z;
  lo_fechahora : Z;
  lo_valor : option float;
  lo_calidad : option Z
}.

Definition lectura_out (l : Lectura.t) : LecturaOut :=
  mkLecturaOut (Lectura.lecturaid l) (Lectura.dispositivoid l) (Lectura.sensorid l)
    (Lectura.fechahora l) (Lectura.valor l) (Lectura.calidad l).

(** asyncpg encodes the arguments first: the timestamps always fit, an
    id must fit the [integer] column it is compared with. *)
Definition encode_lecturas_param (v : pyval) : Result pyval :=
  match v with
  | PyInt z => let* _ := int4_param z in Ok v
  | _ => Ok v
  end.

(** [conn.fetch(query, *params)]: the query has no ORDER BY, so the rows
    come in an order the store chooses.  [now1] and [now2] are the two
    [datetime.utcnow()] calls that fill a missing [desde] and [hasta].  An
    argument asyncpg cannot encode makes the call raise. *)
Inductive get_lecturas (st : Store) (now1 now2 : Z) (dispositivoid sensorid : option Z)
    (desde hasta : option Z) : Result (list LecturaOut) -> Prop :=
| get_lecturas_encode_error : forall q params e,
    get_lecturas_query dispositivoid sensorid
      (default_desde now1 desde) (default_hasta now2 hasta) = (q, params) ->
    map_result encode_lecturas_param params = Err e ->
    get_lecturas st now1 now2 dispositivoid sensorid desde hasta (Err e)
| get_lecturas_rows : forall q params sel rows,
    get_lecturas_query dispositivoid sensorid
      (default_desde now1 desde) (default_hasta now2 hasta) = (q, params) ->
    map_result encode_lecturas_param params = Ok params ->
    max_placeholder q = List.length params ->
    filter_option (fun l => eval_where params l q) (lecturas st) = Some sel ->
    Permutation rows sel ->
    get_lecturas st now1 now2 dispositivoid sensorid desde hasta (Ok (map lectura_out rows)).

(** ** The connection pool (db.py)

    [pool] is the module-global pool; a pool is named here by the attempt
    of [init_db_pool] that created it.  What the server does on each
    attempt is an input: [create_pool] raises, or the pool is created and
    the smoke-test query raises, or both succeed. *)
Inductive attempt_outcome := CreateFails | SmokeFails | Connected.

Inductive db_error :=
| RuntimeError      (* DATABASE_URL not defined *)
| ConnectError      (* the exception of the last attempt, re-raised *)
| NoneAcquire.      (* AttributeError: [None.acquire()] *)

(** [for attempt in range(retries)] from attempt [attempt] on, with
    [fuel] attempts left.  [pool = await asyncpg.create_pool(...)] assigns
    the global before the smoke test runs, so a failed smoke test leaves
    that pool in place.  A failure sleeps [delay] when
    [attempt < retries - 1] and re-raises otherwise.  The result is the
    exception raised (if any), the final [pool] and the sleeps taken. *)
Fixpoint init_attempts (fuel : nat) (attempt retries delay : Z)
    (outcome : Z -> attempt_outcome) (pool : option Z)
    : option db_error * option Z * list Z :=
  match fuel with
  | O => (None, pool, [])
  | S f =>
      let failed p :=
        if attempt <? retries - 1 then
          let '(r, p', slept) := init_attempts f (attempt + 1) retries delay outcome p in
          (r, p', delay :: slept)
        else (Some ConnectError, p, []) in
      match outcome attempt with
      | Connected => (None, Some attempt, [])
      | SmokeFails => failed (Some attempt)
      | CreateFails => failed pool
      end
  end.

Definition init_db_pool (database_url : option string) (outcome : Z -> attempt_outcome)
    (retries delay : Z) (pool : option Z) : option db_error * option Z * list Z :=
  match database_url with
  | None | Some EmptyString => (Some RuntimeError, pool, [])
  | Some _ =>
      match pool with
      | Some _ => (None, pool, [])
      | None => init_attempts (Z.to_nat retries) 0 retries delay outcome None
      end
  end.

Inductive acquire_result :=
| Acquired (p : Z)
| AcquireRaised (e : db_error).

(** [acquire()]: [init_db_pool()] with its defaults (3 attempts, 2 s)
    when no pool is set, then [pool.acquire()]. *)
Definition acquire (database_url : option string) (outcome : Z -> attempt_outcome)
    (pool : option Z) : acquire_result * option Z * list Z :=
  let '(r, p, slept) :=
    match pool with
    | None => init_db_pool database_url outcome 3 2 None
    | Some _ => (None, pool, [])
    end in
  match r with
  | Some e => (AcquireRaised e, p, slept)
  | None =>
      match p with
      | Some h => (Acquired h, p, slept)
      | None => (AcquireRaised NoneAcquire, p, slept)
      end
  end.

(** [close_db_pool()]: a set pool is closed and the global reset. *)
Definition close_db_pool (pool : option Z) : option Z := None.

(** ** [_normalize_hash_from_db] (main.py)

    A Python [str] is its list of code points; [bytes], [bytearray] and a
    [memoryview] are lists of byte values. *)
Inductive db_hash :=
| HashNone
| HashMemoryview (b : list Z)
| HashBytes (b : list Z)
| HashBytearray (b : list Z)
| HashStr (s : list Z)
| HashOther (repr : list Z).   (* any other object, by its [str(h)] *)

(** [str.isspace]: the code points [str.strip()] removes. *)
Definition py_isspace (c : Z) : bool :=
  ((9 <=? c) && (c <=? 13)) || ((28 <=? c) && (c <=? 32)) || (c =? 133) || (c =? 160)
  || (c =? 5760) || ((8192 <=? c) && (c <=? 8202)) || (c =? 8232) || (c =? 8233)
  || (c =? 8239) || (c =? 8287) || (c =? 12288).

Fixpoint lstrip (s : list Z) : list Z :=
  match s with
  | [] => []
  | c :: s' => if py_isspace c then lstrip s' else s
  end.

Definition py_strip (s : list Z) : list Z := rev (lstrip (rev (lstrip s))).

(** [bytes.decode("utf-8")] (strict): the well-formed byte sequences of
    Unicode's table 3-7; anything else raises [UnicodeDecodeError]. *)
Definition utf8_cont (b : Z) : bool := (128 <=? b) && (b <=? 191).

Definition utf8_second3 (b1 b2 : Z) : bool :=
  if b1 =? 224 then (160 <=? b2) && (b2 <=? 191)
  else if b1 =? 237 then (128 <=? b2) && (b2 <=? 159)
  else utf8_cont b2.

Definition utf8_second4 (b1 b2 : Z) : bool :=
  if b1 =? 240 then (144 <=? b2) && (b2 <=? 191)
  else if b1 =? 244 then (128 <=? b2) && (b2 <=? 143)
  else utf8_cont b2.

Fixpoint utf8_decode (bs : list Z) : option (list Z) :=
  match bs with
  | [] => Some []
  | b1 :: r1 =>
      if b1 <? 128 then option_map (cons b1) (utf8_decode r1)
      else if (194 <=? b1) && (b1 <=? 223) then
        match r1 with
        | b2 :: r2 =>
            if utf8_cont b2
            then option_map (cons ((b1 - 192) * 64 + (b2 - 128))) (utf8_decode r2)
            else None
        | [] => None
        end
      else if (224 <=? b1) && (b1 <=? 239) then
        match r1 with
        | b2 :: b3 :: r3 =>
            if utf8_second3 b1 b2 && utf8_cont b3
            then option_map (cons ((b1 - 224) * 4096 + (b2 - 128) * 64 + (b3 - 128)))
                   (utf8_decode r3)
            else None
        | _ => None
        end
      else if (240 <=? b1) && (b1 <=? 244) then
        match r1 with
        | b2 :: b3 :: b4 :: r4 =>
            if utf8_second4 b1 b2 && utf8_cont b3 && utf8_cont b4
            then option_map
                   (cons ((b1 - 240) * 262144 + (b2 - 128) * 4096 + (b3 - 128) * 64 + (b4 - 128)))
                   (utf8_decode r4)
            else None
        | _ => None
        end
      else None
  end.

(** [str.encode("utf-8")] (strict), as [_prehash] in auth.py calls it: a
    surrogate code point raises [UnicodeEncodeError]. *)
Definition utf8_encode_cp (c : Z) : option (list Z) :=
  if c <? 128 then Some [c]
  else if c <? 2048 then Some [192 + c / 64; 128 + c mod 64]
  else if c <? 65536 then
    if (55296 <=? c) && (c <=? 57343) then None
    else Some [224 + c / 4096; 128 + (c / 64) mod 64; 128 + c mod 64]
  else Some [240 + c / 262144; 128 + (c / 4096) mod 64; 128 + (c / 64) mod 64; 128 + c mod 64].

Fixpoint utf8_encode (s : list Z) : option (list Z) :=
  match s with
  | [] => Some []
  | c :: s' =>
      match utf8_encode_cp c, utf8_encode s' with
      | Some b, Some r => Some (b ++ r)
      | _, _ => None
      end
  end.

Inductive hash_error := HashIsNull | HashUndecodable.

(** The branches in the order of the source: [None] raises HTTP 500, a
    memoryview is turned into bytes, bytes and bytearray are decoded (not
    stripped), a str is stripped, anything else is [str(h).strip()]. *)
Definition normalize_hash_from_db (h : db_hash) : hash_error + list Z :=
  let decode b := match utf8_decode b with Some s => inr s | None => inl HashUndecodable end in
  match h with
  | HashNone => inl HashIsNull
  | HashMemoryview b => decode b
  | HashBytes b | HashBytearray b => decode b
  | HashStr s => inr (py_strip s)
  | HashOther r => inr (py_strip r)
  end.

(** A Python str holds code points 0 .. 0x10FFFF. *)
Definition py_code_point (c : Z) : Prop := 0 <= c <= 1114111.
Definition scalar_value (c : Z) : Prop := py_code_point c /\ ~ (55296 <= c <= 57343).

(** * Behaviour on small inputs *)

(** A server on which the first [create_pool] call raises, the second
    pool fails its smoke test and the third attempt connects; and one on
    which no attempt connects, the last one failing only its smoke test. *)
Definition flaky_server (attempt : Z) : attempt_outcome :=
  if attempt =? 0 then CreateFails else if attempt =? 1 then SmokeFails else Connected.

Definition broken_server (attempt : Z) : attempt_outcome :=
  if attempt =? 2 then SmokeFails else CreateFails.

(** Readings at 09:10, 09:45 and 10:05 (2024-01-01 UTC) fall into two
    hourly buckets, of two and one readings. *)
Definition chart_store : Store :=
  mkStore [Dispositivo.mk 1 "S1" "d" None None None None]
    [Sensor.mk 2 1 (Some "T1") "temp" "C" 1%Q 0%Q None None]
    [Lectura.mk 1 1 2 (1704100200) (Some 10%Q) (Some 1) None;
     Lectura.mk 2 1 2 (1704102300) (Some 20%Q) (Some 1) None;
     Lectura.mk 3 1 2 (1704103500) (Some 30%Q) (Some 1) None]
    2 3 4.

Example chart_hour_buckets :
  match get_chart_data chart_store None None 1704099600 1704106800 "hour" with
  | Ok bs => map (fun b => (cb_bucket_start b, cb_count b)) bs
  | Err _ => []
  end = [(1704099600, 2%nat); (1704103200, 1%nat)].
Proof. vm_compute. reflexivity. Qed.

Example month_bucket_start : bucket_start "month" 1710504000 = Some 1709251200.
Proof. vm_compute. reflexivity. Qed.

Example week_bucket_start : bucket_start "week" 1704412800 = Some 1704067200.
Proof. vm_compute. reflexivity. Qed.

Example upsert_twice_same_id :
  match upsert_dispositivo empty_store "S1" "a" None None None None with
  | Ok (i1, st1) =>
      match upsert_dispositivo st1 "S1" "b" (Some "lab") None None None with
      | Ok (i2, st2) => i1 = i2 /\ List.length (dispositivos st2) = 1%nat
      | Err _ => False
      end
  | Err _ => False
  end.
Proof. vm_compute. split; reflexivity. Qed.

(** * Reading ingest *)

Definition store_dev1_sensor2 : Store :=
  mkStore [Dispositivo.mk 1 "S1" "d" None None None None]
    [Sensor.mk 2 1 (Some "T1") "temp" "C" 1%Q 0%Q None None] [] 2 3 1.

Definition reading_at (t : Z) : LecturaCreate.t :=
  LecturaCreate.mk 1 2 t (Some 21%Q) (Some 40%Q) (Some 1).

(** A store that already holds the readings of device 1, sensor 2 at the
    times 100 and 200. *)
Definition store_two_existing : Store :=
  mkStore [Dispositivo.mk 1 "S1" "d" None None None None]
    [Sensor.mk 2 1 (Some "T1") "temp" "C" 1%Q 0%Q None None]
    [Lectura.mk 1 1 2 100 (Some 21%Q) (Some 1) None;
     Lectura.mk 2 1 2 200 (Some 21%Q) (Some 1) None]
    2 3 3.

(** C1 (code_bug): a batch of five readings, two of them already stored
    under their (device, sensor, timestamp) key, gets no [insertedCount] of
    3: the endpoint raises [AttributeError] on [item.valor] before any
    statement runs, and the store is left as it was. *)
Theorem insert_lecturas_batch_five_two_existing :
  insert_lecturas_batch store_two_existing
    [reading_at 100; reading_at 200; reading_at 300; reading_at 400; reading_at 500]
  = Err AttributeError.
Proof. vm_compute. reflexivity. Qed.

(** C2: every non-empty batch fails with [AttributeError] (the items have
    no attribute [valor]) before any row is written; the empty batch
    succeeds, reports [inserted = 0] and leaves the store unchanged. *)
Theorem insert_lecturas_batch_fails_unless_empty :
  forall (st : Store) (lecturas : list LecturaCreate.t),
    insert_lecturas_batch st lecturas =
    match lecturas with
    | [] => Ok (0, st)
    | _ :: _ => Err AttributeError
    end.
Proof. intros st [| item rest]; reflexivity. Qed.

(** C4 (code_bug): a batch holding the reading (device 1, sensor 2, t = 100)
    twice is not reduced to one persisted row: the call raises
    [AttributeError] and the reading table stays empty. *)
Theorem insert_lecturas_batch_duplicate_key_raises :
  insert_lecturas_batch store_dev1_sensor2 [reading_at 100; reading_at 100]
    = Err AttributeError
  /\ lecturas store_dev1_sensor2 = [].
Proof. split; reflexivity. Qed.

(** * Device registration *)








Ltac split_andb :=
  repeat match goal with H : _ && _ = true |- _ => apply andb_prop in H as [? ?] end.

(** A [bind_text] whose strings are known to be free of U+0000. *)
Ltac text_ok :=
  unfold bind_text; cbn [forallb] in *; split_andb;
  repeat match goal with
         | H : nul_free ?x = true |- context [nul_free ?x] => rewrite H
         | H : has_nul ?x = false |- context [nul_free (Some ?x)] =>
             change (nul_free (Some x)) with (negb (has_nul x)); rewrite H
         end;
  reflexivity.




Definition cfg_modo : pydict := [("modo", JStr "auto")].

(** C3 (code_bug): registering serial "S1" a second time with a
    configuration dict does not overwrite the row: asyncpg refuses the dict
    ([DataError]) and the row keeps the first call's name. *)
Theorem upsert_dispositivo_second_call_config_dict :
  match upsert_dispositivo empty_store "S1" "a" None None None None with
  | Ok (_, st1) =>
      upsert_dispositivo st1 "S1" "b" (Some "lab") None None (Some cfg_modo) = Err DataError
      /\ map Dispositivo.nombre (dispositivos st1) = ["a"]
  | Err _ => False
  end.
Proof. vm_compute. split; reflexivity. Qed.



(** C10 (code_bug): a configuration document never reaches the table:
    every call that passes one fails with [DataError], whatever the store
    and the other fields; only an absent configuration is stored, as NULL,
    and reads back as [None]. *)
Theorem upsert_dispositivo_config_dict_refused :
  (forall (st : Store) (serie nombre : string) (ubicacion tipo firmware : option string)
          (cfg : pydict),
     upsert_dispositivo st serie nombre ubicacion tipo firmware (Some cfg) = Err DataError)
  /\ (forall json_loads, decode_configuracion json_loads None = Ok None).
Proof. split; reflexivity. Qed.

(** * Sensor registration *)









(** * Chart data *)

Lemma existsb_eqb_In (b : string) (l : list string) :
  existsb (String.eqb b) l = true <-> In b l.
Proof.
  rewrite existsb_exists. split.
  - intros [x [Hin Hx]]. apply String.eqb_eq in Hx. subst. exact Hin.
  - intros Hin. exists b. split; [exact Hin | apply String.eqb_refl].
Qed.

(** C6: [get_chart_data] fails with [ValidationError] for a bucket outside
    minute, hour, day, week, month, whenever its parameters reach the
    procedure (an [integer] device id, no U+0000 in the text); for a
    bucket inside that set it never fails with [ValidationError]. *)
Theorem get_chart_data_bucket_validation :
  forall (st : Store) (dispositivoid : option Z) (sensornombre : option string)
         (desde hasta : Z) (bucket : string),
    (~ In bucket valid_buckets ->
       (forall d, dispositivoid = Some d -> int4_range d = true) ->
       forallb nul_free [sensornombre; Some bucket] = true ->
       get_chart_data st dispositivoid sensornombre desde hasta bucket = Err ValidationError)
    /\ (In bucket valid_buckets ->
          get_chart_data st dispositivoid sensornombre desde hasta bucket <> Err ValidationError).
Proof.
  intros st dv sn desde hasta bucket. unfold get_chart_data, sp_getchartdata. split.
  - intros Hn Hd Ht.
    assert (Hb : bind_text [sn; Some bucket] = Ok tt) by text_ok.
    rewrite Hb.
    destruct dv as [d |]; [unfold int4_param; rewrite (Hd d eq_refl) |]; cbn [bind];
      destruct (existsb (String.eqb bucket) valid_buckets) eqn:E; try reflexivity;
      apply existsb_eqb_In in E; contradiction.
  - intros Hin. apply existsb_eqb_In in Hin.
    destruct dv as [d |]; [unfold int4_param; destruct (int4_range d) |];
      unfold bind_text; destruct (forallb nul_free _); cbn [bind]; rewrite ?Hin; cbn [bind];
      congruence.
Qed.

(** * Export *)

(** The order the spec asks of an export page: timestamp descending, then
    device and sensor ascending. *)
Definition export_spec_order (a b : ExportRow) : Prop :=
  ex_fechahora b < ex_fechahora a
  \/ (ex_fechahora a = ex_fechahora b
      /\ (ex_dispositivoid a < ex_dispositivoid b
          \/ (ex_dispositivoid a = ex_dispositivoid b /\ ex_sensorid a <= ex_sensorid b))).

Definition export_desc (a b : ExportRow) : Prop := ex_fechahora b <= ex_fechahora a.

Lemma Sorted_skipn {A} (R : A -> A -> Prop) (n : nat) (l : list A) :
  Sorted R l -> Sorted R (skipn n l).
Proof.
  revert l. induction n as [| n IH]; intros [| x l] H; simpl; auto.
  apply IH. inversion H; assumption.
Qed.

Lemma HdRel_firstn {A} (R : A -> A -> Prop) (a : A) (n : nat) (l : list A) :
  HdRel R a l -> HdRel R a (firstn n l).
Proof.
  intros H. destruct n, l; simpl; constructor. inversion H; assumption.
Qed.

Lemma Sorted_firstn {A} (R : A -> A -> Prop) (n : nat) (l : list A) :
  Sorted R l -> Sorted R (firstn n l).
Proof.
  revert l. induction n as [| n IH]; intros [| x l] H; simpl; auto.
  inversion H; subst. constructor; [apply IH; assumption | apply HdRel_firstn; assumption].
Qed.

Lemma Sorted_map_export (l : list Lectura.t) :
  Sorted fechahora_desc l -> Sorted export_desc (map export_row l).
Proof.
  induction 1 as [| x l _ IH Hhd]; simpl; constructor; [exact IH |].
  destruct Hhd; simpl; constructor. assumption.
Qed.

Lemma In_skipn {A} (n : nat) (l : list A) (x : A) : In x (skipn n l) -> In x l.
Proof.
  revert l. induction n as [| n IH]; intros [| y l] H; simpl in *; auto.
Qed.

Lemma In_firstn {A} (n : nat) (l : list A) (x : A) : In x (firstn n l) -> In x l.
Proof.
  revert l. induction n as [| n IH]; intros [| y l] H; simpl in *; try contradiction.
  destruct H; [left; assumption | right; apply IH; assumption].
Qed.

(** Two readings stored with the same timestamp, device 1 first. *)
Definition tie_store : Store :=
  mkStore [Dispositivo.mk 1 "S1" "a" None None None None;
           Dispositivo.mk 2 "S2" "b" None None None None]
    [Sensor.mk 1 1 (Some "T1") "temp" "C" 1%Q 0%Q None None;
     Sensor.mk 2 2 (Some "T1") "temp" "C" 1%Q 0%Q None None]
    [Lectura.mk 1 1 1 500 (Some 21%Q) (Some 1) None;
     Lectura.mk 2 2 2 500 (Some 22%Q) (Some 1) None]
    3 3 3.

(** C7, counterexample: the query may return the two readings of equal
    timestamp with device 2 before device 1, which the (device, sensor)
    tie-break forbids. *)
Lemma export_lecturas_tie_unordered :
  exists out, export_lecturas tie_store 10 0 (Ok out)
              /\ ~ Sorted export_spec_order out.
Proof.
  eexists. split.
  - apply (export_rows tie_store 10 0
             [Lectura.mk 2 2 2 500 (Some 22%Q) (Some 1) None;
              Lectura.mk 1 1 1 500 (Some 21%Q) (Some 1) None]); try lia.
    + apply perm_swap.
    + repeat constructor. unfold fechahora_desc. simpl. lia.
  - simpl. intros H. inversion H as [| ? ? _ Hhd]; subst.
    inversion Hhd; subst. unfold export_spec_order in *. simpl in *. lia.
Qed.

(** C7 (as the code has it): every page [export_lecturas] returns is
    ordered by timestamp descending and consists of stored readings; rows
    with equal timestamps come in an order the store chooses. *)
Theorem export_lecturas_desc_by_fechahora :
  forall (st : Store) (limit offset : Z) (out : list ExportRow),
    export_lecturas st limit offset (Ok out) ->
    Sorted export_desc out /\ incl out (map export_row (lecturas st)).
Proof.
  intros st limit offset out H. inversion H as [ | | ordered _ _ Hperm Hsorted]; subst.
  split.
  - apply Sorted_map_export, Sorted_firstn, Sorted_skipn. exact Hsorted.
  - intros x Hx. apply in_map_iff in Hx as [l [<- Hl]].
    apply in_map. apply (Permutation_in _ Hperm).
    apply In_skipn with (Z.to_nat offset). apply In_firstn with (Z.to_nat limit). exact Hl.
Qed.

(** * Witnesses: the theorems with hypotheses, applied to concrete stores *)






Lemma export_lecturas_desc_by_fechahora_witness :
  export_lecturas tie_store 10 0 (Ok (map export_row (lecturas tie_store))) /\
  Sorted export_desc (map export_row (lecturas tie_store)).
Proof.
  assert (H : export_lecturas tie_store 10 0 (Ok (map export_row (lecturas tie_store)))).
  { apply (export_rows tie_store 10 0 (lecturas tie_store)); try lia.
    - apply Permutation_refl.
    - simpl. repeat constructor. unfold fechahora_desc. simpl. lia. }
  split; [exact H |].
  exact (proj1 (export_lecturas_desc_by_fechahora tie_store 10 0 _ H)).
Defined.

(** * The read endpoints *)

Lemma filter_option_total {A} (f : A -> option bool) (p : A -> bool) (l : list A) :
  (forall x, f x = Some (p x)) -> filter_option f l = Some (filter p l).
Proof.
  intros Hf. induction l as [| x l IH]; [reflexivity |].
  simpl. rewrite Hf, IH. reflexivity.
Qed.

Ltac bool_cases :=
  repeat match goal with
         | |- context [Z.leb ?a ?b] => destruct (Z.leb a b)
         | |- context [Z.eqb ?a ?b] => destruct (Z.eqb a b)
         end; reflexivity.

Lemma get_lecturas_query_sound (d s : option Z) (lo hi : Z) :
  let '(q, params) := get_lecturas_query d s lo hi in
  max_placeholder q = List.length params /\
  forall l, eval_where params l q = Some (lectura_selected d s lo hi l).
Proof.
  unfold get_lecturas_query, lectura_selected.
  destruct (py_truthy_int d) as [dv |], (py_truthy_int s) as [sv |];
    (split; [reflexivity |]); intros l; cbn; f_equal; bool_cases.
Qed.

Lemma get_lecturas_encode_ok (d s : option Z) (lo hi : Z) :
  (forall z, py_truthy_int d = Some z -> int4_range z = true) ->
  (forall z, py_truthy_int s = Some z -> int4_range z = true) ->
  map_result encode_lecturas_param (snd (get_lecturas_query d s lo hi))
  = Ok (snd (get_lecturas_query d s lo hi)).
Proof.
  intros Hd Hs. unfold get_lecturas_query.
  destruct (py_truthy_int d) as [dv |] eqn:Ed, (py_truthy_int s) as [sv |] eqn:Es;
    cbn [snd app map_result encode_lecturas_param bind]; unfold int4_param;
    rewrite ?(Hd dv eq_refl), ?(Hs sv eq_refl); reflexivity.
Qed.

(** X2.  [get_lecturas] answers whenever its id filters fit the [integer]
    columns they are compared with (the query names exactly as many
    placeholders as it passes arguments, whatever filters are given), and
    every answer lists, in some order, exactly the stored readings whose
    timestamp lies in the closed interval [desde .. hasta] (by default the
    last seven days up to now) and, when [dispositivoid] or [sensorid] is a
    non-zero number, whose device or sensor is that one; [0] is ignored
    like an absent filter. *)
Theorem get_lecturas_selects (st : Store) (now1 now2 : Z) (dispositivoid sensorid : option Z)
    (desde hasta : option Z) :
  (forall z, py_truthy_int dispositivoid = Some z -> int4_range z = true) ->
  (forall z, py_truthy_int sensorid = Some z -> int4_range z = true) ->
  (exists rows, get_lecturas st now1 now2 dispositivoid sensorid desde hasta (Ok rows)) /\
  forall r, get_lecturas st now1 now2 dispositivoid sensorid desde hasta r ->
    exists rows, r = Ok rows /\
    Permutation rows
      (map lectura_out
         (filter (lectura_selected dispositivoid sensorid
                    (default_desde now1 desde) (default_hasta now2 hasta))
            (lecturas st))).
Proof.
  intros Hd Hs.
  pose proof (get_lecturas_query_sound dispositivoid sensorid
                (default_desde now1 desde) (default_hasta now2 hasta)) as Hq.
  pose proof (get_lecturas_encode_ok dispositivoid sensorid
                (default_desde now1 desde) (default_hasta now2 hasta) Hd Hs) as Henc.
  destruct (get_lecturas_query dispositivoid sensorid
              (default_desde now1 desde) (default_hasta now2 hasta)) as [q params] eqn:E.
  destruct Hq as [Hm He]. cbn [snd] in Henc.
  split.
  - eexists. eapply get_lecturas_rows; [exact E | exact Henc | exact Hm | |].
    + apply filter_option_total. exact He.
    + apply Permutation_refl.
  - intros r H. destruct H as [q' params' e E' He' | q' params' sel rows' E' _ Hm' Hf Hp].
    + rewrite E in E'. injection E' as <- <-. rewrite Henc in He'. discriminate.
    + rewrite E in E'. injection E' as <- <-.
      rewrite (filter_option_total _ _ _ He) in Hf. injection Hf as <-.
      eexists. split; [reflexivity |]. apply Permutation_map. exact Hp.
Qed.

(** * The connection pool *)

Lemma init_attempts_connects (outcome : Z -> attempt_outcome) (retries delay : Z) (i : Z) :
  forall (n : nat) (a : Z) (pool : option Z),
    a + Z.of_nat n = retries -> a <= i < retries ->
    outcome i = Connected ->
    (forall j, a <= j < i -> outcome j <> Connected) ->
    init_attempts n a retries delay outcome pool
    = (None, Some i, repeat delay (Z.to_nat (i - a))).
Proof.
  induction n as [| n IH]; intros a pool Hn Hi Hc Hbefore; [lia |].
  cbn [init_attempts].
  destruct (Z.eq_dec a i) as [-> | Hne].
  - rewrite Hc. replace (i - i) with 0 by lia. reflexivity.
  - assert (Ha : outcome a <> Connected) by (apply Hbefore; lia).
    assert (Hlt : (a <? retries - 1) = true) by (apply Z.ltb_lt; lia).
    assert (Hrep : repeat delay (Z.to_nat (i - a))
                   = delay :: repeat delay (Z.to_nat (i - (a + 1)))).
    { replace (Z.to_nat (i - a)) with (S (Z.to_nat (i - (a + 1)))) by lia. reflexivity. }
    rewrite Hrep.
    destruct (outcome a); [| | contradiction];
      rewrite Hlt; rewrite IH;
      first [reflexivity | assumption | lia | intros j Hj; apply Hbefore; lia].
Qed.

(** X3.  With [DATABASE_URL] set and no pool yet, when attempt [i] is the
    first one that connects and passes the smoke test, [init_db_pool]
    returns normally with the pool of attempt [i] installed, after
    sleeping [delay] once per failed attempt before it. *)
Theorem init_db_pool_first_success (url : string) (outcome : Z -> attempt_outcome)
    (retries delay i : Z) :
  url <> EmptyString ->
  0 <= i < retries ->
  outcome i = Connected ->
  (forall j, 0 <= j < i -> outcome j <> Connected) ->
  init_db_pool (Some url) outcome retries delay None
  = (None, Some i, repeat delay (Z.to_nat i)).
Proof.
  intros Hu Hi Hc Hb. unfold init_db_pool.
  destruct url as [| ch url']; [contradiction |].
  rewrite (init_attempts_connects outcome retries delay i (Z.to_nat retries) 0 None);
    try (rewrite ?Z.sub_0_r; reflexivity); try lia; assumption.
Qed.

Lemma init_attempts_exhausted (outcome : Z -> attempt_outcome) (retries delay : Z) :
  forall (n : nat) (a : Z) (pool : option Z),
    (1 <= n)%nat -> a + Z.of_nat n = retries ->
    (forall j, a <= j < retries -> outcome j <> Connected) ->
    exists pool',
      init_attempts n a retries delay outcome pool
      = (Some ConnectError, pool', repeat delay (n - 1)) /\
      (outcome (retries - 1) = SmokeFails -> pool' = Some (retries - 1)) /\
      (((forall j, a <= j < retries -> outcome j = CreateFails) /\ pool' = pool) \/
       (exists k, a <= k < retries /\ outcome k = SmokeFails /\ pool' = Some k)).
Proof.
  induction n as [| n IH]; intros a pool Hn Ha Hno; [lia |].
  cbn [init_attempts].
  destruct (Z.ltb_spec a (retries - 1)) as [Hlt | Hge].
  - assert (Hn' : (1 <= n)%nat) by lia.
    assert (Hno' : forall j, a + 1 <= j < retries -> outcome j <> Connected)
      by (intros j Hj; apply Hno; lia).
    assert (Hrep : repeat delay (S n - 1) = delay :: repeat delay (n - 1)).
    { replace (S n - 1)%nat with (S (n - 1)) by lia. reflexivity. }
    rewrite Hrep.
    destruct (outcome a) eqn:Eo.
    + destruct (IH (a + 1) pool Hn' ltac:(lia) Hno') as (p' & E & Hs & Hc).
      rewrite E. exists p'. split; [reflexivity |]. split; [exact Hs |].
      destruct Hc as [[Hall Hp] | (k & Hk & Hks & Hp)].
      * left. split; [| exact Hp]. intros j Hj.
        destruct (Z.eq_dec j a) as [-> | Hja]; [exact Eo | apply Hall; lia].
      * right. exists k. split; [lia | split; assumption].
    + destruct (IH (a + 1) (Some a) Hn' ltac:(lia) Hno') as (p' & E & Hs & Hc).
      rewrite E. exists p'. split; [reflexivity |]. split; [exact Hs |].
      right. destruct Hc as [[_ Hp] | (k & Hk & Hks & Hp)].
      * exists a. split; [lia | split; assumption].
      * exists k. split; [lia | split; assumption].
    + exfalso. apply (Hno a); [lia | exact Eo].
  - assert (Hlast : a = retries - 1) by lia. subst a.
    assert (Hn0 : n = 0%nat) by lia. subst n.
    destruct (outcome (retries - 1)) eqn:Eo.
    + exists pool. split; [reflexivity |]. split; [discriminate |].
      left. split; [| reflexivity]. intros j Hj.
      replace j with (retries - 1) by lia. exact Eo.
    + exists (Some (retries - 1)). split; [reflexivity |]. split; [reflexivity |].
      right. exists (retries - 1). split; [lia | split; [exact Eo | reflexivity]].
    + exfalso. apply (Hno (retries - 1)); [lia | exact Eo].
Qed.

(** X4.  With [DATABASE_URL] set and no pool yet, when none of the
    [retries] attempts (at least one) connects, [init_db_pool] re-raises
    the last attempt's exception after [retries - 1] sleeps.  The global
    [pool] stays [None] if and only if every [create_pool] call raised
    (a pool created by an earlier attempt is kept too); when the
    last attempt created a pool whose smoke test failed, that pool is left
    installed, and a later [acquire] hands out connections from it
    without calling [init_db_pool] again. *)
Theorem init_db_pool_exhausted (url : string) (outcome outcome' : Z -> attempt_outcome)
    (retries delay : Z) :
  url <> EmptyString ->
  1 <= retries ->
  (forall j, 0 <= j < retries -> outcome j <> Connected) ->
  exists pool',
    init_db_pool (Some url) outcome retries delay None
    = (Some ConnectError, pool', repeat delay (Z.to_nat (retries - 1))) /\
    (pool' = None <-> forall j, 0 <= j < retries -> outcome j = CreateFails) /\
    (outcome (retries - 1) = SmokeFails ->
     pool' = Some (retries - 1) /\
     acquire (Some url) outcome' pool' = (Acquired (retries - 1), pool', [])).
Proof.
  intros Hu Hr Hno. unfold init_db_pool.
  destruct url as [| ch url']; [contradiction |].
  destruct (init_attempts_exhausted outcome retries delay (Z.to_nat retries) 0 None
              ltac:(lia) ltac:(lia) Hno) as (p' & E & Hs & Hc).
  exists p'. rewrite E.
  replace (Z.to_nat retries - 1)%nat with (Z.to_nat (retries - 1)) by lia.
  split; [reflexivity |]. split.
  - split.
    + intros Hnone. destruct Hc as [[Hall _] | (k & _ & _ & Hp)]; [exact Hall |].
      rewrite Hp in Hnone. discriminate.
    + intros Hall. destruct Hc as [[_ Hp] | (k & Hk & Hks & _)]; [exact Hp |].
      rewrite (Hall k Hk) in Hks. discriminate.
  - intros Hsm. rewrite (Hs Hsm). split; reflexivity.
Qed.

(** X5.  [acquire] on an unset pool runs [init_db_pool()] with its
    defaults: when all three attempts fail to create a pool it raises
    after sleeping 2 s twice and leaves no pool; without [DATABASE_URL]
    it raises [RuntimeError] at once.  Once a pool is installed, [acquire]
    uses it and never looks at [DATABASE_URL] or the server again, and
    after [close_db_pool] the next [acquire] creates a new pool. *)
Theorem acquire_lazy_init (url : option string) (outcome : Z -> attempt_outcome) (h : Z) :
  ((forall j, 0 <= j < 3 -> outcome j = CreateFails) ->
   url <> None -> url <> Some EmptyString ->
   acquire url outcome None = (AcquireRaised ConnectError, None, [2; 2])) /\
  ((url = None \/ url = Some EmptyString) ->
   acquire url outcome None = (AcquireRaised RuntimeError, None, [])) /\
  acquire url outcome (Some h) = (Acquired h, Some h, []) /\
  (url <> None -> url <> Some EmptyString -> outcome 0 = Connected ->
   acquire url outcome (close_db_pool (Some h)) = (Acquired 0, Some 0, [])).
Proof.
  split; [| split; [| split]].
  - intros Hall Hn He. unfold acquire, init_db_pool.
    destruct url as [[| ch u] |]; try congruence.
    cbn. replace (PosDef.Pos.to_nat 3) with 3%nat by reflexivity. cbn [init_attempts].
    rewrite (Hall 0) by lia. cbn. rewrite (Hall 1) by lia. cbn.
    rewrite (Hall 2) by lia. reflexivity.
  - intros [-> | ->]; reflexivity.
  - reflexivity.
  - intros Hn He Hc. unfold acquire, close_db_pool, init_db_pool.
    destruct url as [[| ch u] |]; try congruence.
    cbn. replace (PosDef.Pos.to_nat 3) with 3%nat by reflexivity. cbn [init_attempts].
    rewrite Hc. reflexivity.
Qed.

(** * Round trips through the read endpoints *)

Lemma In_insert_by_id (x d : Dispositivo.t) (ds : list Dispositivo.t) :
  In x (insert_by_id d ds) <-> x = d \/ In x ds.
Proof.
  induction ds as [| d' ds IH]; simpl; [intuition congruence |].
  destruct (Dispositivo.dispositivoid d <=? Dispositivo.dispositivoid d'); simpl; [intuition congruence |].
  rewrite IH. intuition congruence.
Qed.

Lemma In_order_by_dispositivoid (x : Dispositivo.t) (ds : list Dispositivo.t) :
  In x (order_by_dispositivoid ds) <-> In x ds.
Proof.
  induction ds as [| d ds IH]; simpl; [intuition congruence |].
  rewrite In_insert_by_id, IH. intuition congruence.
Qed.

Lemma map_result_total {A B} (f : A -> Result B) (g : A -> B) (xs : list A) :
  (forall x, In x xs -> f x = Ok (g x)) -> map_result f xs = Ok (map g xs).
Proof.
  induction xs as [| x xs IH]; intros Hf; [reflexivity |].
  simpl. rewrite (Hf x (or_introl eq_refl)). simpl.
  rewrite IH by (intros y Hy; apply Hf; right; exact Hy). reflexivity.
Qed.

Definition no_configuracion (st : Store) : Prop :=
  forall d, In d (dispositivos st) -> Dispositivo.configuracion d = None.

Definition device_out_plain (r : Dispositivo.t) : DeviceOut :=
  mkDeviceOut (Dispositivo.dispositivoid r) (Dispositivo.serie r) (Dispositivo.nombre r)
    (Dispositivo.ubicacion r) (Dispositivo.tipo r) (Dispositivo.firmware r) None.

Lemma get_devices_no_configuracion (json_loads : string -> Result pyjson) (st : Store) :
  no_configuracion st ->
  get_devices json_loads st = Ok (map device_out_plain (order_by_dispositivoid (dispositivos st))).
Proof.
  intros H. unfold get_devices. apply map_result_total.
  intros r Hr. apply (proj1 (In_order_by_dispositivoid _ _)) in Hr.
  unfold device_out. rewrite (H r Hr). reflexivity.
Qed.

Lemma upsert_dispositivo_row (st st' : Store) (id : Z) (serie nombre : string)
    (ubicacion tipo firmware : option string) (configuracion : option pydict) :
  upsert_dispositivo st serie nombre ubicacion tipo firmware configuracion = Ok (id, st') ->
  In (Dispositivo.mk id serie nombre ubicacion tipo firmware None) (dispositivos st') /\
  (no_configuracion st -> no_configuracion st').
Proof.
  intros Hup. unfold upsert_dispositivo in Hup.
  destruct configuracion as [cfg |]; [discriminate |].
  unfold bind_text in Hup. destruct (forallb nul_free _); simpl in Hup; [| discriminate].
  destruct (find (same_serie serie) (dispositivos st)) as [old |] eqn:Ef.
  - injection Hup as <- <-. unfold set_dispositivos. cbn [dispositivos].
    apply find_some in Ef as [Hold Hs].
    split.
    + apply in_map_iff. exists old. split; [| exact Hold].
      rewrite Hs. unfold same_serie in Hs. apply String.eqb_eq in Hs. rewrite Hs.
      reflexivity.
    + intros Hst d Hd. apply in_map_iff in Hd as (d0 & <- & Hd0).
      destruct (same_serie serie d0); [reflexivity | exact (Hst d0 Hd0)].
  - destruct (dispositivo_id_taken _ _); [discriminate |].
    injection Hup as <- <-. unfold set_dispositivos. cbn [dispositivos].
    split.
    + apply in_or_app. right. left. reflexivity.
    + intros Hst d Hd. apply in_app_or in Hd as [Hd | [<- | []]];
        [exact (Hst d Hd) | reflexivity].
Qed.

(** X6.  No configuration is ever stored: from a store whose devices have
    none, every successful [upsert_dispositivo] keeps it so (a dict is
    refused by the codec, [None] is stored as NULL).  So [get_devices]
    never calls [json.loads] and never fails on such a store, and the
    upserted device is listed with the returned id, the given serial and
    fields, and configuration [None]. *)
Theorem upsert_then_get_devices (st st' : Store) (id : Z) (serie nombre : string)
    (ubicacion tipo firmware : option string) (configuracion : option pydict)
    (json_loads : string -> Result pyjson) :
  no_configuracion st ->
  upsert_dispositivo st serie nombre ubicacion tipo firmware configuracion = Ok (id, st') ->
  no_configuracion st' /\
  exists outs, get_devices json_loads st' = Ok outs /\
    In (mkDeviceOut id serie nombre ubicacion tipo firmware None) outs.
Proof.
  intros Hst Hup.
  destruct (upsert_dispositivo_row _ _ _ _ _ _ _ _ _ Hup) as [Hin Hinv].
  pose proof (Hinv Hst) as Hnc.
  split; [exact Hnc |].
  eexists. split; [apply get_devices_no_configuracion; exact Hnc |].
  apply in_map_iff. eexists. split; [| apply In_order_by_dispositivoid; exact Hin].
  reflexivity.
Qed.


Lemma In_insert_by_sensorid (x s : Sensor.t) (ss : list Sensor.t) :
  In x (insert_by_sensorid s ss) <-> x = s \/ In x ss.
Proof.
  induction ss as [| s' ss IH]; simpl; [intuition congruence |].
  destruct (Sensor.sensorid s <=? Sensor.sensorid s'); simpl; [intuition congruence |].
  rewrite IH. intuition congruence.
Qed.

Lemma In_get_sensors (x : Sensor.t) (st : Store) :
  In x (get_sensors st) <-> In x (sensores st).
Proof.
  unfold get_sensors. induction (sensores st) as [| s ss IH]; simpl; [intuition congruence |].
  rewrite In_insert_by_sensorid, IH. intuition congruence.
Qed.

Definition sensorid_le (a b : Sensor.t) : Prop := Sensor.sensorid a <= Sensor.sensorid b.

Lemma insert_by_sensorid_sorted (s : Sensor.t) (ss : list Sensor.t) :
  Sorted sensorid_le ss -> Sorted sensorid_le (insert_by_sensorid s ss).
Proof.
  induction 1 as [| s' ss Hs IH Hhd]; simpl; [repeat constructor |].
  unfold sensorid_le in *.
  destruct (Z.leb_spec (Sensor.sensorid s) (Sensor.sensorid s')) as [Hle | Hgt].
  - constructor; [constructor; assumption | constructor; exact Hle].
  - constructor; [exact IH |].
    destruct ss as [| s'' ss]; simpl; [constructor; unfold sensorid_le; lia |].
    inversion Hhd; subst.
    destruct (Sensor.sensorid s <=? Sensor.sensorid s''); constructor; unfold sensorid_le; lia.
Qed.

(** X7.  [get_sensors] lists every stored sensor by ascending id, and a
    sensor upserted with [upsert_sensor] is listed afterwards under the
    returned id with the given device, code and fields, whether the call
    inserted it or updated an existing row. *)
Theorem upsert_then_get_sensors (st st' : Store) (id d : Z) (code : option string)
    (nombre unidad : string) (fe de : float) (rmin rmax : option float) :
  upsert_sensor st d code nombre unidad fe de rmin rmax = Ok (id, st') ->
  Sorted sensorid_le (get_sensors st') /\
  In (Sensor.mk id d code nombre unidad fe de rmin rmax) (get_sensors st').
Proof.
  intros Hup. split.
  - unfold get_sensors. induction (sensores st') as [| s ss IH]; simpl;
      [constructor | apply insert_by_sensorid_sorted; exact IH].
  - apply In_get_sensors. unfold upsert_sensor in Hup.
    destruct (int4_param d); cbn [bind] in Hup; [| discriminate].
    destruct (bind_text _); cbn [bind] in Hup; [| discriminate].
    destruct (find (sensor_key_conflict d code) (sensores st)) as [old |] eqn:Ef.
    + injection Hup as <- <-. unfold set_sensores. cbn [sensores].
      apply find_some in Ef as [Hold Hc].
      apply in_map_iff. exists old. split; [| exact Hold]. rewrite Hc.
      unfold sensor_key_conflict in Hc.
      destruct code as [c |]; [| discriminate].
      destruct (Sensor.codigosensor old) as [c' |] eqn:Ec; [| discriminate].
      apply andb_prop in Hc as [Hc1 Hc2].
      apply String.eqb_eq in Hc1. apply Z.eqb_eq in Hc2. subst.
      reflexivity.
    + destruct (sensor_id_taken st (seq_sensor st)); [discriminate |].
      destruct (dispositivo_exists st d); [| discriminate].
      injection Hup as <- <-. unfold set_sensores. cbn [sensores].
      apply in_or_app. right. left. reflexivity.
Qed.

(** * Password hashes read from the database *)

Ltac zlia := Z.div_mod_to_equations; lia.

Ltac z_cases :=
  repeat match goal with
         | |- context [Z.ltb ?a ?b] => destruct (Z.ltb_spec a b); try (exfalso; zlia)
         | |- context [Z.leb ?a ?b] => destruct (Z.leb_spec a b); try (exfalso; zlia)
         | |- context [Z.eqb ?a ?b] => destruct (Z.eqb_spec a b); try (exfalso; zlia)
         end;
  cbn [andb option_map].

Lemma utf8_decode_encode_cp (c : Z) (rest : list Z) :
  scalar_value c ->
  exists b, utf8_encode_cp c = Some b /\
    utf8_decode (b ++ rest) = option_map (cons c) (utf8_decode rest).
Proof.
  intros [[Hc0 Hc1] Hsur]. unfold utf8_encode_cp.
  destruct (Z.ltb_spec c 128).
  { eexists. split; [reflexivity |]. cbn [app utf8_decode]. z_cases. reflexivity. }
  destruct (Z.ltb_spec c 2048).
  { eexists. split; [reflexivity |]. cbn [app utf8_decode]. unfold utf8_cont. z_cases.
    destruct (utf8_decode rest); cbn [option_map]; [| reflexivity].
    do 2 f_equal. zlia. }
  destruct (Z.ltb_spec c 65536).
  { destruct (Z.leb_spec 55296 c), (Z.leb_spec c 57343); cbn [andb]; try (exfalso; zlia);
    eexists; (split; [reflexivity |]); cbn [app utf8_decode]; unfold utf8_second3, utf8_cont;
    z_cases; destruct (utf8_decode rest); cbn [option_map]; try reflexivity;
    do 2 f_equal; zlia. }
  eexists. split; [reflexivity |]. cbn [app utf8_decode]. unfold utf8_second4, utf8_cont.
  z_cases; destruct (utf8_decode rest); cbn [option_map]; try reflexivity;
    do 2 f_equal; zlia.
Qed.

Definition byte_value (b : Z) : Prop := 0 <= b <= 255.

Ltac hyp_z_cases H :=
  repeat match type of H with
         | context [Z.ltb ?a ?b] => destruct (Z.ltb_spec a b); cbn [andb] in H
         | context [Z.leb ?a ?b] => destruct (Z.leb_spec a b); cbn [andb] in H
         | context [Z.eqb ?a ?b] => destruct (Z.eqb_spec a b); cbn [andb] in H
         end.

Lemma utf8_decode_sound (n : nat) :
  forall bs s, (List.length bs <= n)%nat -> Forall byte_value bs ->
    utf8_decode bs = Some s -> Forall scalar_value s /\ utf8_encode s = Some bs.
Proof.
  induction n as [| n IH]; intros bs s Hlen Hb Hd.
  { destruct bs; [| simpl in Hlen; lia]. injection Hd as <-. split; [constructor | reflexivity]. }
  destruct bs as [| b1 r1]; [injection Hd as <-; split; [constructor | reflexivity] |].
  cbn [utf8_decode] in Hd. unfold utf8_second3, utf8_second4, utf8_cont in Hd.
  destruct r1 as [| b2 [| b3 [| b4 r4]]];
    repeat match goal with H : Forall _ (_ :: _) |- _ => inversion H; clear H; subst end;
    unfold byte_value in *;
    hyp_z_cases Hd; try discriminate;
    match type of Hd with
    | option_map (cons ?v) (utf8_decode ?r) = Some _ =>
        destruct (utf8_decode r) as [s' |] eqn:E; [| discriminate];
        cbn [option_map] in Hd; injection Hd as <-;
        destruct (IH r s' ltac:(cbn [List.length] in *; lia)
                     ltac:(repeat constructor; unfold byte_value in *; first [assumption | lia]) E)
          as [Hs He];
        (split; [constructor; [unfold scalar_value, py_code_point; zlia | exact Hs] |]);
        cbn [utf8_encode]; rewrite He; unfold utf8_encode_cp; z_cases; cbn [app];
        f_equal; repeat (apply f_equal2; [zlia |]); reflexivity
    end.
Qed.

Lemma utf8_encode_decode (s : list Z) :
  Forall scalar_value s ->
  exists bs, utf8_encode s = Some bs /\ utf8_decode bs = Some s.
Proof.
  induction 1 as [| c s Hc Hs IH]; [exists []; split; reflexivity |].
  destruct IH as (bs & He & Hd).
  destruct (utf8_decode_encode_cp c bs Hc) as (b & Hb & Hbd).
  exists (b ++ bs). cbn [utf8_encode]. rewrite Hb, He. split; [reflexivity |].
  rewrite Hbd, Hd. reflexivity.
Qed.

Lemma utf8_encode_cp_scalar (c : Z) (b : list Z) :
  py_code_point c -> utf8_encode_cp c = Some b -> scalar_value c.
Proof.
  intros Hc Hb. split; [exact Hc |]. intros Hs. unfold utf8_encode_cp in Hb.
  hyp_z_cases Hb; try discriminate; lia.
Qed.

Lemma lstrip_head (s : list Z) (c : Z) :
  hd_error (lstrip s) = Some c -> py_isspace c = false.
Proof.
  induction s as [| c' s IH]; [discriminate |]. cbn [lstrip].
  destruct (py_isspace c') eqn:E; [exact IH |]. intros H. injection H as <-. exact E.
Qed.

Lemma lstrip_clean (s : list Z) :
  (forall c, hd_error s = Some c -> py_isspace c = false) -> lstrip s = s.
Proof.
  destruct s as [| c s]; [reflexivity |]. intros H. cbn [lstrip].
  rewrite (H c eq_refl). reflexivity.
Qed.

Lemma lstrip_app_clean (l : list Z) (h : Z) :
  py_isspace h = false -> lstrip (l ++ [h]) = lstrip l ++ [h].
Proof.
  intros Hh. induction l as [| c l IH]; cbn [lstrip app].
  - rewrite Hh. reflexivity.
  - destruct (py_isspace c); [exact IH | reflexivity].
Qed.

Lemma py_strip_ends (s : list Z) :
  (forall c, hd_error (py_strip s) = Some c -> py_isspace c = false) /\
  (forall c, hd_error (rev (py_strip s)) = Some c -> py_isspace c = false).
Proof.
  unfold py_strip. rewrite rev_involutive. split; [| apply lstrip_head].
  destruct (lstrip s) as [| h t] eqn:E; [intros c H; discriminate |].
  assert (Hh : py_isspace h = false) by (apply (lstrip_head s); rewrite E; reflexivity).
  cbn [rev]. rewrite lstrip_app_clean by exact Hh. rewrite rev_app_distr.
  intros c H. cbn in H. injection H as <-. exact Hh.
Qed.

Lemma py_strip_idem (s : list Z) : py_strip (py_strip s) = py_strip s.
Proof.
  destruct (py_strip_ends s) as [Hh Hl].
  unfold py_strip at 1. rewrite (lstrip_clean _ Hh). rewrite (lstrip_clean _ Hl).
  apply rev_involutive.
Qed.

(** X8.  A hash stored as bytes comes back as the exact text: for any text
    of Unicode scalar values, its UTF-8 bytes, read as [bytes],
    [bytearray] or [memoryview], normalize to the text itself, surrounding
    whitespace included; the same text read as [str] is stripped. *)
Theorem normalize_hash_bytes_roundtrip (s : list Z) :
  Forall scalar_value s ->
  exists bs, utf8_encode s = Some bs /\
    normalize_hash_from_db (HashBytes bs) = inr s /\
    normalize_hash_from_db (HashBytearray bs) = inr s /\
    normalize_hash_from_db (HashMemoryview bs) = inr s /\
    normalize_hash_from_db (HashStr s) = inr (py_strip s).
Proof.
  intros Hs. destruct (utf8_encode_decode s Hs) as (bs & He & Hd).
  exists bs. unfold normalize_hash_from_db. rewrite Hd. repeat split; assumption.
Qed.

(** X9.  Decoding a binary hash loses nothing: when [bytes], [bytearray]
    or [memoryview] contents normalize to a text, that text is made of
    Unicode scalar values and UTF-8 encodes back to the very same bytes,
    which is what passlib hands to bcrypt.  The error branch is taken
    exactly for the byte strings that encode no text at all. *)
Theorem normalize_hash_bytes_exact (h : db_hash) (bs : list Z) :
  (h = HashBytes bs \/ h = HashBytearray bs \/ h = HashMemoryview bs) ->
  Forall byte_value bs ->
  (forall s, normalize_hash_from_db h = inr s ->
             Forall scalar_value s /\ utf8_encode s = Some bs) /\
  (normalize_hash_from_db h = inl HashUndecodable <->
   ~ exists s, Forall py_code_point s /\ utf8_encode s = Some bs).
Proof.
  intros Hh Hb.
  assert (Hn : normalize_hash_from_db h
               = match utf8_decode bs with Some s => inr s | None => inl HashUndecodable end)
    by (destruct Hh as [-> | [-> | ->]]; reflexivity).
  rewrite Hn. split.
  - intros s Hd. destruct (utf8_decode bs) as [s' |] eqn:E; [| discriminate].
    injection Hd as <-. exact (utf8_decode_sound _ bs s' (le_n _) Hb E).
  - split.
    + intros Hd (s & Hc & He).
      assert (Hsc : Forall scalar_value s).
      { clear Hd Hn Hh. revert bs He Hb. induction Hc as [| c s Hc1 Hc IH]; intros bs He Hb;
          [constructor |].
        cbn [utf8_encode] in He.
        destruct (utf8_encode_cp c) as [b |] eqn:Eb; [| discriminate].
        destruct (utf8_encode s) as [r |] eqn:Er; [| discriminate].
        injection He as <-.
        constructor; [exact (utf8_encode_cp_scalar c b Hc1 Eb) |].
        apply (IH r eq_refl). apply Forall_app in Hb. exact (proj2 Hb). }
      destruct (utf8_encode_decode s Hsc) as (bs' & He' & Hd').
      rewrite He in He'. injection He' as <-. rewrite Hd' in Hd. discriminate.
    + intros Hno. destruct (utf8_decode bs) as [s |] eqn:E; [| reflexivity].
      exfalso. apply Hno. exists s.
      destruct (utf8_decode_sound _ bs s (le_n _) Hb E) as [Hs He].
      split; [| exact He]. eapply Forall_impl; [| exact Hs]. intros c [Hc _]. exact Hc.
Qed.

(** X10.  A hash read as [str] (or any other object, through [str(h)]) is
    returned stripped: it neither starts nor ends with a whitespace
    character, and normalizing it again leaves it unchanged. *)
Theorem normalize_hash_text_stripped (h : db_hash) (r t : list Z) :
  (h = HashStr r \/ h = HashOther r) ->
  normalize_hash_from_db h = inr t ->
  t = py_strip r /\
  (forall c, hd_error t = Some c -> py_isspace c = false) /\
  (forall c, hd_error (rev t) = Some c -> py_isspace c = false) /\
  normalize_hash_from_db (HashStr t) = inr t.
Proof.
  intros Hh Hn.
  assert (Ht : t = py_strip r)
    by (destruct Hh as [-> | ->]; injection Hn as <-; reflexivity).
  subst t. destruct (py_strip_ends r) as [H1 H2].
  split; [reflexivity |]. split; [exact H1 |]. split; [exact H2 |].
  cbn [normalize_hash_from_db]. rewrite py_strip_idem. reflexivity.
Qed.

(** * Witnesses of the further theorems *)

Lemma init_db_pool_first_success_witness :
  "db" <> EmptyString /\ 0 <= 2 < 3 /\ flaky_server 2 = Connected /\
  (forall j, 0 <= j < 2 -> flaky_server j <> Connected) /\
  init_db_pool (Some "db") flaky_server 3 2 None = (None, Some 2, repeat 2 (Z.to_nat 2)).
Proof.
  assert (Hu : "db" <> EmptyString) by discriminate.
  assert (Hi : 0 <= 2 < 3) by lia.
  assert (Hc : flaky_server 2 = Connected) by reflexivity.
  assert (Hb : forall j, 0 <= j < 2 -> flaky_server j <> Connected).
  { intros j Hj. unfold flaky_server.
    destruct (Z.eqb_spec j 0); [discriminate |].
    destruct (Z.eqb_spec j 1); [discriminate | lia]. }
  split; [exact Hu |]. split; [exact Hi |]. split; [exact Hc |]. split; [exact Hb |].
  exact (init_db_pool_first_success "db" flaky_server 3 2 2 Hu Hi Hc Hb).
Defined.

Lemma init_db_pool_exhausted_witness :
  "db" <> EmptyString /\ 1 <= 3 /\ (forall j, 0 <= j < 3 -> broken_server j <> Connected) /\
  exists pool',
    init_db_pool (Some "db") broken_server 3 2 None
    = (Some ConnectError, pool', repeat 2 (Z.to_nat (3 - 1))) /\
    (pool' = None <-> forall j, 0 <= j < 3 -> broken_server j = CreateFails) /\
    (broken_server (3 - 1) = SmokeFails ->
     pool' = Some (3 - 1) /\
     acquire (Some "db") flaky_server pool' = (Acquired (3 - 1), pool', [])).
Proof.
  assert (Hu : "db" <> EmptyString) by discriminate.
  assert (Hr : 1 <= 3) by lia.
  assert (Hno : forall j, 0 <= j < 3 -> broken_server j <> Connected).
  { intros j Hj. unfold broken_server. destruct (j =? 2); discriminate. }
  split; [exact Hu |]. split; [exact Hr |]. split; [exact Hno |].
  exact (init_db_pool_exhausted "db" broken_server flaky_server 3 2 Hu Hr Hno).
Defined.

Lemma get_lecturas_selects_witness :
  (forall z, py_truthy_int (Some 1) = Some z -> int4_range z = true) /\
  (forall z, py_truthy_int None = Some z -> int4_range z = true) /\
  (exists rows, get_lecturas tie_store 1000 1000 (Some 1) None (Some 0) None (Ok rows)) /\
  forall r, get_lecturas tie_store 1000 1000 (Some 1) None (Some 0) None r ->
    exists rows, r = Ok rows /\
    Permutation rows
      (map lectura_out
         (filter (lectura_selected (Some 1) None
                    (default_desde 1000 (Some 0)) (default_hasta 1000 None))
            (lecturas tie_store))).
Proof.
  assert (Hd : forall z, py_truthy_int (Some 1) = Some z -> int4_range z = true).
  { intros z Hz. cbn in Hz. injection Hz as <-. reflexivity. }
  assert (Hs : forall z, py_truthy_int None = Some z -> int4_range z = true).
  { intros z Hz. discriminate Hz. }
  split; [exact Hd |]. split; [exact Hs |].
  exact (get_lecturas_selects tie_store 1000 1000 (Some 1) None (Some 0) None Hd Hs).
Defined.

Lemma upsert_then_get_devices_witness :
  no_configuracion tie_store /\
  exists id st',
    upsert_dispositivo tie_store "S2" "b2" (Some "lab") None None None = Ok (id, st') /\
    no_configuracion st' /\
    exists outs, get_devices (fun _ => Err DataError) st' = Ok outs /\
      In (mkDeviceOut id "S2" "b2" (Some "lab") None None None) outs.
Proof.
  assert (Hst : no_configuracion tie_store).
  { intros d Hd. destruct Hd as [<- | [<- | []]]; reflexivity. }
  split; [exact Hst |].
  eexists. eexists. split; [reflexivity |].
  exact (upsert_then_get_devices tie_store _ _ "S2" "b2" (Some "lab") None None None
           (fun _ => Err DataError) Hst eq_refl).
Defined.

Lemma upsert_then_get_sensors_witness :
  exists id st',
    upsert_sensor tie_store 2 (Some "T1") "temp2" "K" 1%Q 0%Q None (Some 50%Q) = Ok (id, st') /\
    Sorted sensorid_le (get_sensors st') /\
    In (Sensor.mk id 2 (Some "T1") "temp2" "K" 1%Q 0%Q None (Some 50%Q)) (get_sensors st').
Proof.
  eexists. eexists. split; [reflexivity |].
  exact (upsert_then_get_sensors tie_store _ _ 2 (Some "T1") "temp2" "K" 1%Q 0%Q None (Some 50%Q)
           eq_refl).
Defined.

Lemma normalize_hash_bytes_roundtrip_witness :
  Forall scalar_value [32; 233; 8364; 128512] /\
  exists bs, utf8_encode [32; 233; 8364; 128512] = Some bs /\
    normalize_hash_from_db (HashBytes bs) = inr [32; 233; 8364; 128512] /\
    normalize_hash_from_db (HashBytearray bs) = inr [32; 233; 8364; 128512] /\
    normalize_hash_from_db (HashMemoryview bs) = inr [32; 233; 8364; 128512] /\
    normalize_hash_from_db (HashStr [32; 233; 8364; 128512])
    = inr (py_strip [32; 233; 8364; 128512]).
Proof.
  assert (Hs : Forall scalar_value [32; 233; 8364; 128512]).
  { repeat constructor; unfold py_code_point; lia. }
  split; [exact Hs |].
  exact (normalize_hash_bytes_roundtrip _ Hs).
Defined.

Lemma normalize_hash_bytes_exact_witness :
  (HashBytes [195; 169; 32] = HashBytes [195; 169; 32] \/
   HashBytes [195; 169; 32] = HashBytearray [195; 169; 32] \/
   HashBytes [195; 169; 32] = HashMemoryview [195; 169; 32]) /\
  Forall byte_value [195; 169; 32] /\
  (forall s, normalize_hash_from_db (HashBytes [195; 169; 32]) = inr s ->
             Forall scalar_value s /\ utf8_encode s = Some [195; 169; 32]) /\
  (normalize_hash_from_db (HashBytes [195; 169; 32]) = inl HashUndecodable <->
   ~ exists s, Forall py_code_point s /\ utf8_encode s = Some [195; 169; 32]).
Proof.
  assert (Hh : HashBytes [195; 169; 32] = HashBytes [195; 169; 32] \/
               HashBytes [195; 169; 32] = HashBytearray [195; 169; 32] \/
               HashBytes [195; 169; 32] = HashMemoryview [195; 169; 32]) by (left; reflexivity).
  assert (Hb : Forall byte_value [195; 169; 32]).
  { repeat constructor; unfold byte_value; lia. }
  split; [exact Hh |]. split; [exact Hb |].
  exact (normalize_hash_bytes_exact _ _ Hh Hb).
Defined.

Lemma normalize_hash_text_stripped_witness :
  (HashStr [32; 97; 10] = HashStr [32; 97; 10] \/ HashStr [32; 97; 10] = HashOther [32; 97; 10]) /\
  normalize_hash_from_db (HashStr [32; 97; 10]) = inr [97] /\
  [97] = py_strip [32; 97; 10] /\
  (forall c, hd_error [97] = Some c -> py_isspace c = false) /\
  (forall c, hd_error (rev [97]) = Some c -> py_isspace c = false) /\
  normalize_hash_from_db (HashStr [97]) = inr [97].
Proof.
  assert (Hh : HashStr [32; 97; 10] = HashStr [32; 97; 10] \/
               HashStr [32; 97; 10] = HashOther [32; 97; 10]) by (left; reflexivity).
  assert (Hn : normalize_hash_from_db (HashStr [32; 97; 10]) = inr [97]) by (vm_compute; reflexivity).
  split; [exact Hh |]. split; [exact Hn |].
  exact (normalize_hash_text_stripped _ _ _ Hh Hn).
Defined.
